(** * remix-isomorphic-link: href classification and target normalisation

    A shallow embedding of the pure core of [src/index.tsx]
    ([isUrl], [isInHostDomain], [urlToHref], [parseHref], [addFinalSlash],
    [sanitizeTo]) together with the properties of the specification that
    concern it.

    Conventions of the embedding.
    - A JavaScript string is a [string]; each [ascii] stands for one code
      unit.  The source only compares code units, takes prefixes and
      concatenates, so nothing depends on the width of a code unit.
    - An optional argument ([host?: string], [isExternal?: boolean]) is an
      [option]; [None] is [undefined].
    - A call that may throw returns a [result]; the two exceptions of the
      program are the [Error] raised by [throwError] and the [TypeError] of
      the platform's [URL] constructor.
    - The platform's [URL] constructor is not part of the repository.  The
      functions of the source are parameterised by it (Section [Link]); module
      [WHATWG] gives an executable model of it on which the functions can be
      run. *)

From Stdlib Require Import String Ascii List Bool Arith NArith Lia.
From Stdlib Require Import DecimalString.
Import ListNotations.

Local Open Scope string_scope.

(** ** JavaScript values and string primitives used by the source *)

Module JS.

(** [!s] is true exactly for the empty string. *)
Definition truthy_string (s : string) : bool :=
  negb (Nat.eqb (String.length s) 0).

(** Truthiness of an optional string ([undefined] and the empty string
    are falsy). *)
Definition truthy_ostring (s : option string) : bool :=
  match s with
  | Some s' => truthy_string s'
  | None => false
  end.

(** Truthiness of an optional boolean ([undefined] and [false] are falsy). *)
Definition truthy_obool (b : option bool) : bool :=
  match b with
  | Some true => true
  | _ => false
  end.

(** [s.startsWith(p)]. *)
Definition startsWith (s p : string) : bool := String.prefix p s.

(** [s.substring(start)]: the code units from [start] to the end. *)
Definition substring (s : string) (start : nat) : string :=
  String.substring start (String.length s - start) s.

(** [s[i]]: [None] is [undefined]. *)
Definition index (s : string) (i : nat) : option ascii := String.get i s.

(** [a === b] for a string [a] and an optional string [b]. *)
Definition strict_eq (a : string) (b : option string) : bool :=
  match b with
  | Some b' => String.eqb a b'
  | None => false
  end.

(** The double-quote character, which the error message of the source
    contains. *)
Definition dquote : string := String (ascii_of_nat 34) EmptyString.

End JS.

(** ** Exceptions *)

Inductive exn : Type :=
| Error (message : string)     (* [throw new Error(message)] *)
| TypeError.                   (* thrown by [new URL(..)] on an invalid URL *)

Inductive result (A : Type) : Type :=
| Ok (a : A)
| Throw (e : exn).

Arguments Ok {A} a.
Arguments Throw {A} e.

Definition bind {A B : Type} (r : result A) (k : A -> result B) : result B :=
  match r with
  | Ok a => k a
  | Throw e => Throw e
  end.

Notation "x <- r ;; k" := (bind r (fun x => k))
  (at level 61, r at next level, right associativity).

(** ** The data model *)

(** The six components of a platform [URL] object that the source reads. *)
Module URL.
Record t : Type := mk {
  href : string;
  protocol : string;
  host : string;
  pathname : string;
  search : string;
  hash : string
}.
End URL.

(** [interface HREF] (the field name [prototcol] is the source's). *)
Module HREF.
Record t : Type := mk {
  href : string;
  prototcol : string;
  host : string;
  pathname : string;
  search : string;
  hash : string;
  isOutgoing : bool;
  isAbsolute : bool
}.
End HREF.

(** React Router's [Partial<Path>]: every field may be absent. *)
Module Path.
Record t : Type := mk {
  pathname : option string;
  search : option string;
  hash : option string
}.
End Path.

(** React Router's [To = string | Partial<Path>]. *)
Inductive To : Type :=
| ToString (s : string)
| ToPath (p : Path.t).

Definition is_string (to : To) : bool :=
  match to with
  | ToString _ => true
  | ToPath _ => false
  end.

(** ** The functions of the source *)

Definition throwError {A : Type} (message : string) : result A :=
  Throw (Error ("remix-isomorphic-link: " ++ message)).

Definition misuse_message : string :=
  "You specified " ++ JS.dquote ++ "isExternal={true}" ++ JS.dquote ++
  " but provided a to prop of type Path. Please provide your href as a string if you want it to be used as an outgoing link. Type Path can only be used for internal links.".

Definition addFinalSlash (pathname : string) : string :=
  if negb (JS.truthy_string pathname) then "/"
  else
    match JS.index pathname (String.length pathname - 1) with
    | Some c => if Ascii.eqb c "/" then pathname else pathname ++ "/"
    | None => pathname ++ "/"
    end.

Definition isInHostDomain (url : URL.t) (host : option string) : bool :=
  JS.strict_eq (URL.host url) host.

Definition urlToHref (url : URL.t) (host : option string) : HREF.t :=
  {| HREF.href := URL.href url;
     HREF.prototcol := URL.protocol url;
     HREF.host := URL.host url;
     HREF.pathname := URL.pathname url;
     HREF.search := URL.search url;
     HREF.hash := URL.hash url;
     HREF.isOutgoing := negb (isInHostDomain url host);
     HREF.isAbsolute := true |}.

Definition fake_origin : string := "https://remix-isomorphic-link.com".

Section Link.

(** [new URL(href)]: [None] when the constructor throws. *)
Variable URL_new : string -> option URL.t.

Definition new_URL (href : string) : result URL.t :=
  match URL_new href with
  | Some url => Ok url
  | None => Throw TypeError
  end.

Definition isUrl (href : string) : bool :=
  match new_URL href with
  | Ok _ => true
  | Throw _ => false
  end.

(** The string the source hands to [new URL] for a target that is not a
    URL: the target without a leading [host], made absolute, on a
    synthetic origin. *)
Definition sanitizedHref (href : string) (host : option string) : string :=
  match host with
  | Some h =>
      if JS.truthy_string h && JS.startsWith href h
      then JS.substring href (String.length h)
      else href
  | None => href
  end.

Definition fakeUrl (href : string) (host : option string) : string :=
  let s := sanitizedHref href host in
  fake_origin ++ (if JS.startsWith s "/" then s else "/" ++ s).

Definition parseHref (href : string) (host : option string)
    (isExternal : option bool) : result HREF.t :=
  if isUrl href then
    url <- new_URL href ;;
    Ok (urlToHref url host)
  else if JS.truthy_obool isExternal then
    Ok {| HREF.href := href;
          HREF.prototcol := EmptyString;
          HREF.host := EmptyString;
          HREF.pathname := EmptyString;
          HREF.search := EmptyString;
          HREF.hash := EmptyString;
          HREF.isOutgoing := true;
          HREF.isAbsolute := true |}
  else
    let isAbsolute := JS.startsWith (sanitizedHref href host) "/" in
    url <- new_URL (fakeUrl href host) ;;
    Ok {| HREF.href := href;
          HREF.prototcol := EmptyString;
          HREF.host := EmptyString;
          HREF.pathname := URL.pathname url;
          HREF.search := URL.search url;
          HREF.hash := URL.hash url;
          HREF.isOutgoing := false;
          HREF.isAbsolute := isAbsolute |}.

(** [useTrailingSlash = false] is a default parameter: [undefined] reads
    as [false]. *)
Definition sanitizeTo (to : To) (useTrailingSlash : option bool)
    (explicitlyOutgoing : option bool) (host : option string)
    : result (bool * To) :=
  let useTrailingSlash :=
    match useTrailingSlash with Some b => b | None => false end in
  if negb (is_string to) && JS.truthy_obool explicitlyOutgoing then
    throwError misuse_message
  else
    match to with
    | ToString s =>
        href <- parseHref s host explicitlyOutgoing ;;
        if HREF.isOutgoing href then Ok (true, to)
        else
          let sanitizedPath :=
            if useTrailingSlash then addFinalSlash (HREF.pathname href)
            else HREF.pathname href in
          Ok (false,
              ToString (sanitizedPath ++ HREF.search href ++ HREF.hash href))
    | ToPath p =>
        let sanitizedPathname :=
          if useTrailingSlash && JS.truthy_ostring (Path.pathname p)
          then option_map addFinalSlash (Path.pathname p)
          else Path.pathname p in
        Ok (false,
            ToPath {| Path.pathname := sanitizedPathname;
                      Path.search := Path.search p;
                      Path.hash := Path.hash p |})
    end.

End Link.

(** The string [sanitizeTo] returns for an internal string target, from the
    components [parseHref] found: the pathname, normalised when the policy
    is on, then search and hash. *)
Definition router_target (useTrailingSlash : option bool)
    (pathname search hash : string) : string :=
  (match useTrailingSlash with
   | Some true => addFinalSlash pathname
   | _ => pathname
   end) ++ search ++ hash.

(** ** An executable model of the platform's [URL] constructor

    [new URL(input)], called without a base, follows the basic URL parser of
    the WHATWG URL Standard.  [WHATWG.parse] models it on lists of code
    units: leading and trailing C0 controls and spaces are trimmed, tabs and
    newlines removed, a scheme is required, a special scheme (http, https,
    ws, wss, ftp, file) takes an authority and a list of path segments, any
    other scheme takes an authority after two slashes, a list of path
    segments after one slash and an opaque path otherwise; dot segments are
    resolved and the path, query and fragment are percent-encoded.

    Outside the model: hosts that need percent-decoding, IDNA, IPv4
    normalisation or IPv6 brackets (a bracket makes the model fail), Windows
    drive letters in file URLs, and code units above 0x7F, which are encoded
    as single bytes. *)

Module WHATWG.

Local Open Scope nat_scope.
Local Open Scope list_scope.

Definition code (c : ascii) : nat := nat_of_ascii c.

Definition in_range (lo hi : nat) (c : ascii) : bool :=
  (lo <=? code c) && (code c <=? hi).

Definition one_of (set : string) (c : ascii) : bool :=
  existsb (Ascii.eqb c) (list_ascii_of_string set).

Definition dquote : ascii := ascii_of_nat 34.

Definition is_c0_or_space (c : ascii) : bool := code c <=? 32.
Definition is_tab_or_newline (c : ascii) : bool :=
  (code c =? 9) || (code c =? 10) || (code c =? 13).
Definition is_upper (c : ascii) : bool := in_range 65 90 c.
Definition is_alpha (c : ascii) : bool := is_upper c || in_range 97 122 c.
Definition is_digit (c : ascii) : bool := in_range 48 57 c.
Definition is_scheme_char (c : ascii) : bool :=
  is_alpha c || is_digit c || one_of "+-." c.
Definition lower (c : ascii) : ascii :=
  if is_upper c then ascii_of_nat (code c + 32) else c.

Definition is_slash (c : ascii) : bool := Ascii.eqb c "/".
Definition is_any_slash (c : ascii) : bool := one_of "/\" c.

(** *** Percent-encode sets *)

Definition c0_control_set (c : ascii) : bool :=
  (code c <=? 31) || (126 <? code c).
Definition fragment_set (c : ascii) : bool :=
  c0_control_set c || one_of " <>`" c || Ascii.eqb c dquote.
Definition query_set (c : ascii) : bool :=
  c0_control_set c || one_of " #<>" c || Ascii.eqb c dquote.
Definition special_query_set (c : ascii) : bool :=
  query_set c || Ascii.eqb c "'".
Definition path_set (c : ascii) : bool :=
  query_set c || one_of "?^`{}" c.
Definition userinfo_set (c : ascii) : bool :=
  path_set c || one_of "/:;=@[\]|" c.

Definition forbidden_host (c : ascii) : bool :=
  (code c =? 0) || is_tab_or_newline c || one_of " #/:<>?@[\]^|" c.
Definition forbidden_domain (c : ascii) : bool :=
  forbidden_host c || (code c <=? 31) || one_of "%" c || (code c =? 127).

Definition hex_digit (n : nat) : ascii :=
  if n <? 10 then ascii_of_nat (48 + n) else ascii_of_nat (55 + n).

Definition pct_char (set : ascii -> bool) (c : ascii) : list ascii :=
  if set c
  then ["%"%char; hex_digit (code c / 16); hex_digit (code c mod 16)]
  else [c].

Definition pct (set : ascii -> bool) (l : list ascii) : list ascii :=
  flat_map (pct_char set) l.

(** *** Cutting the input *)

Fixpoint drop_while (p : ascii -> bool) (l : list ascii) : list ascii :=
  match l with
  | [] => []
  | c :: l' => if p c then drop_while p l' else l
  end.

Definition trim (l : list ascii) : list ascii :=
  rev (drop_while is_c0_or_space (rev (drop_while is_c0_or_space l))).

Definition strip (l : list ascii) : list ascii :=
  filter (fun c => negb (is_tab_or_newline c)) (trim l).

(** Everything before the first [stop] and, when there is one, everything
    after it. *)
Fixpoint cut (stop : ascii -> bool) (l : list ascii)
    : list ascii * option (list ascii) :=
  match l with
  | [] => ([], None)
  | c :: l' =>
      if stop c then ([], Some l')
      else let (a, b) := cut stop l' in (c :: a, b)
  end.

(** Everything before the first [stop], and the rest from it on. *)
Fixpoint span (stop : ascii -> bool) (l : list ascii)
    : list ascii * list ascii :=
  match l with
  | [] => ([], [])
  | c :: l' =>
      if stop c then ([], l)
      else let (a, b) := span stop l' in (c :: a, b)
  end.

Fixpoint split_on (sep : ascii -> bool) (l : list ascii)
    : list (list ascii) :=
  match l with
  | [] => [[]]
  | c :: l' =>
      if sep c then [] :: split_on sep l'
      else
        match split_on sep l' with
        | seg :: segs => (c :: seg) :: segs
        | [] => [[c]]
        end
  end.

(** *** Scheme *)

Fixpoint scheme_rest (l : list ascii) : option (list ascii * list ascii) :=
  match l with
  | [] => None
  | c :: l' =>
      if Ascii.eqb c ":" then Some ([], l')
      else if is_scheme_char c then
        match scheme_rest l' with
        | Some (s, r) => Some (lower c :: s, r)
        | None => None
        end
      else None
  end.

Definition split_scheme (l : list ascii) : option (list ascii * list ascii) :=
  match l with
  | c :: _ => if is_alpha c then scheme_rest l else None
  | [] => None
  end.

Definition str (l : list ascii) : string := string_of_list_ascii l.

Definition default_port (scheme : string) : option N :=
  if String.eqb scheme "http" then Some 80%N
  else if String.eqb scheme "https" then Some 443%N
  else if String.eqb scheme "ws" then Some 80%N
  else if String.eqb scheme "wss" then Some 443%N
  else if String.eqb scheme "ftp" then Some 21%N
  else None.

Definition is_special (scheme : string) : bool :=
  match default_port scheme with
  | Some _ => true
  | None => String.eqb scheme "file"
  end.

(** *** Authority *)

Record authority : Type := mk_authority {
  userinfo : list ascii;     (* serialised, with its final [@], or empty *)
  hostname : list ascii;
  port : option N
}.

Definition parse_port (scheme : string) (p : list ascii)
    : option (option N) :=
  if forallb is_digit p then
    match p with
    | [] => Some None
    | _ =>
        let n :=
          fold_left (fun n c => (10 * n + N.of_nat (code c - 48))%N) p 0%N in
        if (65535 <? n)%N then None
        else
          match default_port scheme with
          | Some d => if N.eqb d n then Some None else Some (Some n)
          | None => Some (Some n)
          end
    end
  else None.

Definition parse_host (special : bool) (h : list ascii)
    : option (list ascii) :=
  if special then
    match h with
    | [] => None
    | _ => if existsb forbidden_domain h then None else Some (map lower h)
    end
  else if existsb forbidden_host h then None
  else Some (pct c0_control_set h).

Definition serialize_userinfo (cred : list ascii) : list ascii :=
  let (user, pass) := cut (Ascii.eqb ":") cred in
  let u := pct userinfo_set user in
  let p := match pass with
           | Some p' => pct userinfo_set p'
           | None => []
           end in
  match u, p with
  | [], [] => []
  | _, [] => u ++ ["@"%char]
  | _, _ => u ++ ":"%char :: p ++ ["@"%char]
  end.

Definition parse_authority (scheme : string) (special : bool)
    (a : list ascii) : option authority :=
  let (h, c) := cut (Ascii.eqb "@") (rev a) in
  let hostport := rev h in
  let cred := match c with
              | Some c' => serialize_userinfo (rev c')
              | None => []
              end in
  match c, hostport with
  | Some _, [] => None
  | _, _ =>
      let (hn, po) := cut (Ascii.eqb ":") hostport in
      match po with
      | Some p =>
          match hn with
          | [] => None
          | _ =>
              match parse_host special hn, parse_port scheme p with
              | Some h', Some p' => Some (mk_authority cred h' p')
              | _, _ => None
              end
          end
      | None =>
          match parse_host special hn with
          | Some h' => Some (mk_authority cred h' None)
          | None => None
          end
      end
  end.

Definition serialize_host (a : authority) : list ascii :=
  match port a with
  | Some n =>
      hostname a ++ ":"%char ::
      list_ascii_of_string (NilZero.string_of_uint (N.to_uint n))
  | None => hostname a
  end.

(** *** Path *)

Definition seg_is (seg : list ascii) (s : string) : bool :=
  String.eqb (str (map lower seg)) s.

Definition is_single_dot (seg : list ascii) : bool :=
  seg_is seg "." || seg_is seg "%2e".

Definition is_double_dot (seg : list ascii) : bool :=
  seg_is seg ".." || seg_is seg ".%2e" || seg_is seg "%2e." ||
  seg_is seg "%2e%2e".

(** The path state: [stack] is the path built so far, last segment
    first. *)
Fixpoint walk (segs stack : list (list ascii)) : list (list ascii) :=
  match segs with
  | [] => rev stack
  | seg :: rest =>
      let last := match rest with [] => true | _ => false end in
      if is_double_dot seg then
        walk rest (if last then [] :: tl stack else tl stack)
      else if is_single_dot seg then
        walk rest (if last then [] :: stack else stack)
      else walk rest (seg :: stack)
  end.

Definition path_list (special : bool) (p : list ascii)
    : list (list ascii) :=
  let sep := if special then is_any_slash else is_slash in
  match p with
  | [] => if special then [[]] else []
  | c :: p' =>
      walk (map (pct path_set) (split_on sep (if sep c then p' else p))) []
  end.

Definition serialize_path (segs : list (list ascii)) : list ascii :=
  flat_map (fun seg => "/"%char :: seg) segs.

(** *** Assembling the [URL] object *)

Definition with_mark (mark : ascii) (x : option (list ascii)) : list ascii :=
  match x with
  | Some l => mark :: l
  | None => []
  end.

Definition nonempty_with_mark (mark : ascii) (x : option (list ascii))
    : list ascii :=
  match x with
  | Some (c :: l) => mark :: c :: l
  | _ => []
  end.

Definition make (special : bool) (scheme : list ascii)
    (auth : option authority) (path : list ascii)
    (query fragment : option (list ascii)) : URL.t :=
  let q := option_map
             (pct (if special then special_query_set else query_set))
             query in
  let f := option_map (pct fragment_set) fragment in
  let h := match auth with
           | Some a => serialize_host a
           | None => []
           end in
  let origin := match auth with
                | Some a => "/"%char :: "/"%char :: userinfo a ++ h
                | None =>
                    match path with
                    | "/"%char :: "/"%char :: _ => ["/"%char; "."%char]
                    | _ => []
                    end
                end in
  {| URL.href := str (scheme ++ ":"%char :: origin ++ path ++
                      with_mark "?" q ++ with_mark "#" f);
     URL.protocol := str (scheme ++ [":"%char]);
     URL.host := str h;
     URL.pathname := str path;
     URL.search := str (nonempty_with_mark "?" q);
     URL.hash := str (nonempty_with_mark "#" f) |}.

Definition parse_special (scheme hier : list ascii)
    (query fragment : option (list ascii)) : option URL.t :=
  let (a, p) := span is_any_slash (drop_while is_any_slash hier) in
  match parse_authority (str scheme) true a with
  | Some au =>
      Some (make true scheme (Some au)
              (serialize_path (path_list true p)) query fragment)
  | None => None
  end.

Definition parse_file (scheme hier : list ascii)
    (query fragment : option (list ascii)) : option URL.t :=
  let (a, p) :=
    match hier with
    | s1 :: s2 :: r =>
        if is_any_slash s1 && is_any_slash s2 then span is_any_slash r
        else ([], hier)
    | _ => ([], hier)
    end in
  let h := match a with
           | [] => Some []
           | _ => parse_host true a
           end in
  match h with
  | Some h' =>
      let h'' := if String.eqb (str h') "localhost" then [] else h' in
      Some (make true scheme (Some (mk_authority [] h'' None))
              (serialize_path (path_list true p)) query fragment)
  | None => None
  end.

Definition parse_other (scheme hier : list ascii)
    (query fragment : option (list ascii)) : option URL.t :=
  match hier with
  | "/"%char :: "/"%char :: r =>
      let (a, p) := span is_slash r in
      match parse_authority (str scheme) false a with
      | Some au =>
          Some (make false scheme (Some au)
                  (serialize_path (path_list false p)) query fragment)
      | None => None
      end
  | "/"%char :: _ =>
      Some (make false scheme None
              (serialize_path (path_list false hier)) query fragment)
  | _ =>
      Some (make false scheme None (pct c0_control_set hier)
              query fragment)
  end.

Definition parse_list (input : list ascii) : option URL.t :=
  match split_scheme (strip input) with
  | None => None
  | Some (scheme, rest) =>
      let (body, fragment) := cut (Ascii.eqb "#") rest in
      let (hier, query) := cut (Ascii.eqb "?") body in
      if String.eqb (str scheme) "file" then
        parse_file scheme hier query fragment
      else if is_special (str scheme) then
        parse_special scheme hier query fragment
      else parse_other scheme hier query fragment
  end.

Definition parse (input : string) : option URL.t :=
  parse_list (list_ascii_of_string input).

(** The code units of the synthetic origin followed by a slash, and of
    the part of it after the scheme. *)
Definition synthetic_prefix : list ascii :=
  Eval cbv in list_ascii_of_string (fake_origin ++ "/").

Definition synthetic_authority : list ascii :=
  Eval cbv in list_ascii_of_string "//remix-isomorphic-link.com".

End WHATWG.

(** ** Context, hooks and the link component

    The rest of [src/index.tsx].  A React element is modelled by its type
    and its props object; a props object is the list of its bindings in the
    order the JSX expression writes them, so that a later binding of a key
    overrides an earlier one, as object spread does.  Values the component
    only passes on (event handlers, refs, router state) are of an opaque
    type [Other]; [CSSProperties] and [ReactNode] are opaque too.  The
    fragment around the element is left out. *)

(** What [sanitizeTo] decides, without the target. *)
Definition classification (r : result (bool * To)) : result bool :=
  match r with
  | Ok (isExternal, _) => Ok isExternal
  | Throw e => Throw e
  end.

(** [NavLinkProps['className']]: a string, or a function of the active
    state that may return [undefined]. *)
Inductive ClassNameProp : Type :=
| ClassNameString (s : string)
| ClassNameFn (f : bool -> option string).

Definition truthy_className (className : option ClassNameProp) : bool :=
  match className with
  | None => false
  | Some (ClassNameString s) => JS.truthy_string s
  | Some (ClassNameFn _) => true
  end.

(** [x || ''] for an optional string. *)
Definition or_empty (x : option string) : string :=
  match x with
  | Some s => if JS.truthy_string s then s else EmptyString
  | None => EmptyString
  end.

(** [isActive = false] is a default parameter. *)
Definition isomorphicClassName (className : option ClassNameProp)
    (isActive : option bool) : string :=
  let isActive := match isActive with Some b => b | None => false end in
  if negb (truthy_className className) then EmptyString
  else
    match className with
    | Some (ClassNameString s) => s
    | Some (ClassNameFn f) => or_empty (f isActive)
    | None => EmptyString
    end.

(** The [className] of the anchor, and the function handed to [NavLink]. *)
Definition external_className (className : option ClassNameProp) : string :=
  "isomorphic-link isomorphic-link--external " ++
  isomorphicClassName className None.

Definition internal_className (className : option ClassNameProp)
    (isActive : bool) : string :=
  "isomorphic-link isomorphic-link--internal " ++
  isomorphicClassName className (Some isActive).

(** [interface IsomorphicNavContextProps]. *)
Module IsomorphicNavContextProps.
Record t : Type := mk {
  host : option string;
  useTrailingSlash : option bool;
  openOutgoingAsBlank : option bool;
  defaultPrefetch : option string
}.
End IsomorphicNavContextProps.

(** The value of [React.createContext]: what a link reads when no provider
    is above it. *)
Definition IsomorphicNavContext_default : IsomorphicNavContextProps.t :=
  IsomorphicNavContextProps.mk None (Some false) (Some false) (Some "none").

(** [interface IsomorphicProps]. *)
Module IsomorphicProps.
Record t : Type := mk { isExternal : option bool }.
End IsomorphicProps.

Section Component.

Variable URL_new : string -> option URL.t.
Variables CSSProperties ReactNode NavigateOptions Other : Type.

Definition useSanitizedTo (context : IsomorphicNavContextProps.t) (to : To)
    (explicitlyOutgoing : option bool) : result (bool * To) :=
  sanitizeTo URL_new to
    (IsomorphicNavContextProps.useTrailingSlash context)
    explicitlyOutgoing
    (IsomorphicNavContextProps.host context).

(** What [isomorphicNavigate] does: assign [window.location.href], or call
    the router's [navigate]. *)
Inductive navigation : Type :=
| LocationAssign (href : To)
| RouterNavigate (to : To) (options : option NavigateOptions).

(** The function [useIsomorphicNavigate] returns; [props?.isExternal] is
    [undefined] when [props] is. *)
Definition isomorphicNavigate (context : IsomorphicNavContextProps.t)
    (to : To) (options : option NavigateOptions)
    (props : option IsomorphicProps.t) : result navigation :=
  r <- sanitizeTo URL_new to
         (IsomorphicNavContextProps.useTrailingSlash context)
         (match props with
          | Some p => IsomorphicProps.isExternal p
          | None => None
          end)
         (IsomorphicNavContextProps.host context) ;;
  let (isExternal, sanitizedTo) := r in
  if isExternal then Ok (LocationAssign sanitizedTo)
  else Ok (RouterNavigate sanitizedTo options).

(** [NavLinkProps['style']] and [NavLinkProps['children']]. *)
Inductive StyleProp : Type :=
| StyleObject (css : CSSProperties)
| StyleFn (f : bool -> option CSSProperties).

Inductive ChildrenProp : Type :=
| ChildrenNode (node : ReactNode)
| ChildrenFn (f : bool -> ReactNode).

(** An object is always truthy, so [!style] holds for [undefined] only. *)
Definition isomorphicStyle (style : option StyleProp)
    (isActive : option bool) : option CSSProperties :=
  let isActive := match isActive with Some b => b | None => false end in
  match style with
  | None => None
  | Some (StyleFn f) => f isActive
  | Some (StyleObject css) => Some css
  end.

(** The values of a props object. *)
Inductive value : Type :=
| VUndefined
| VString (s : string)
| VPath (p : Path.t)
| VClassNameFn (f : bool -> string)
| VCss (css : CSSProperties)
| VStyleFn (f : bool -> option CSSProperties)
| VOther (x : Other).

Definition object : Type := list (string * value).

(** [o[key]]: the last binding of [key]; [None] when [o] has none. *)
Fixpoint prop (key : string) (o : object) : option value :=
  match o with
  | nil => None
  | (k, v) :: o' =>
      match prop key o' with
      | Some v' => Some v'
      | None => if String.eqb key k then Some v else None
      end
  end.

Definition value_of_To (to : To) : value :=
  match to with
  | ToString s => VString s
  | ToPath p => VPath p
  end.

Definition value_of_string (s : option string) : value :=
  match s with
  | Some s' => VString s'
  | None => VUndefined
  end.

Definition value_of_css (css : option CSSProperties) : value :=
  match css with
  | Some c => VCss c
  | None => VUndefined
  end.

Definition value_of_style (style : option StyleProp) : value :=
  match style with
  | Some (StyleObject css) => VCss css
  | Some (StyleFn f) => VStyleFn f
  | None => VUndefined
  end.

(** [type IsomorphicLinkProps], as the component destructures it: the
    named props and the rest, [props], which holds the caller's remaining
    props. *)
Record IsomorphicLinkProps : Type := mkIsomorphicLinkProps {
  to : To;
  isExternal : option bool;
  className : option ClassNameProp;
  style : option StyleProp;
  replace : value;
  state : value;
  reloadDocument : value;
  caseSensitive : value;
  end_ : value;
  children : option ChildrenProp;
  props : object
}.

(** The two elements the component renders: the native anchor and the
    router's [NavLink]. *)
Inductive element : Type :=
| Anchor (attributes : object) (child : option ReactNode)
| NavLink (attributes : object) (child : option ChildrenProp).

(** The child of the anchor: a function child is called with
    [isActive: false]. *)
Definition anchor_child (children : option ChildrenProp)
    : option ReactNode :=
  match children with
  | Some (ChildrenFn f) => Some (f false)
  | Some (ChildrenNode node) => Some node
  | None => None
  end.

Definition blank_attributes (openOutgoingAsBlank : option bool) : object :=
  if JS.truthy_obool openOutgoingAsBlank
  then [("target", VString "_blank"); ("rel", VString "noopener noreferrer")]
  else [].

Definition IsomorphicLink (context : IsomorphicNavContextProps.t)
    (p : IsomorphicLinkProps) (ref : value) : result element :=
  r <- useSanitizedTo context (to p) (isExternal p) ;;
  let (isOutgoing, santizedTo) := r in
  if isOutgoing then
    Ok (Anchor (blank_attributes
             (IsomorphicNavContextProps.openOutgoingAsBlank context) ++
           props p ++
           [("ref", ref);
            ("href", value_of_To santizedTo);
            ("className", VString (external_className (className p)));
            ("style", value_of_css (isomorphicStyle (style p) None))])%list
          (anchor_child (children p)))
  else
    Ok (NavLink
          ([("prefetch",
             value_of_string
               (IsomorphicNavContextProps.defaultPrefetch context))] ++
           props p ++
           [("ref", ref);
            ("to", value_of_To santizedTo);
            ("className", VClassNameFn (internal_className (className p)));
            ("style", value_of_style (style p));
            ("replace", replace p);
            ("state", state p);
            ("reloadDocument", reloadDocument p);
            ("caseSensitive", caseSensitive p);
            ("end", end_ p)])%list
          (children p)).

End Component.

Arguments LocationAssign {NavigateOptions} href.
Arguments RouterNavigate {NavigateOptions} to options.
Arguments isomorphicNavigate URL_new {NavigateOptions} context to options
  props.
Arguments StyleObject {CSSProperties} css.
Arguments StyleFn {CSSProperties} f.
Arguments ChildrenNode {ReactNode} node.
Arguments ChildrenFn {ReactNode} f.
Arguments isomorphicStyle {CSSProperties} style isActive.
Arguments VUndefined {CSSProperties Other}.
Arguments VString {CSSProperties Other} s.
Arguments VPath {CSSProperties Other} p.
Arguments VClassNameFn {CSSProperties Other} f.
Arguments VCss {CSSProperties Other} css.
Arguments VStyleFn {CSSProperties Other} f.
Arguments VOther {CSSProperties Other} x.
Arguments prop {CSSProperties Other} key o.
Arguments value_of_To {CSSProperties Other} to.
Arguments value_of_string {CSSProperties Other} s.
Arguments value_of_css {CSSProperties Other} css.
Arguments value_of_style {CSSProperties Other} style.
Arguments mkIsomorphicLinkProps {CSSProperties ReactNode Other}.
Arguments to {CSSProperties ReactNode Other} i.
Arguments isExternal {CSSProperties ReactNode Other} i.
Arguments className {CSSProperties ReactNode Other} i.
Arguments style {CSSProperties ReactNode Other} i.
Arguments replace {CSSProperties ReactNode Other} i.
Arguments state {CSSProperties ReactNode Other} i.
Arguments reloadDocument {CSSProperties ReactNode Other} i.
Arguments caseSensitive {CSSProperties ReactNode Other} i.
Arguments end_ {CSSProperties ReactNode Other} i.
Arguments children {CSSProperties ReactNode Other} i.
Arguments props {CSSProperties ReactNode Other} i.
Arguments Anchor {CSSProperties ReactNode Other} attributes child.
Arguments NavLink {CSSProperties ReactNode Other} attributes child.
Arguments anchor_child {ReactNode} children.
Arguments blank_attributes {CSSProperties Other} openOutgoingAsBlank.
Arguments IsomorphicLink URL_new {CSSProperties ReactNode Other} context p
  ref.

(** ** Sample values *)

Definition example_contact_url : URL.t :=
  URL.mk "https://example.com/contact" "https:" "example.com" "/contact"
    EmptyString EmptyString.

Definition example_query_url : URL.t :=
  URL.mk "https://example.com/contact?foo=bar#baz" "https:" "example.com"
    "/contact" "?foo=bar" "#baz".

Definition youtube_url : URL.t :=
  URL.mk "https://youtube.com/" "https:" "youtube.com" "/"
    EmptyString EmptyString.

Definition mailto_url : URL.t :=
  URL.mk "mailto:a@b.com" "mailto:" EmptyString "a@b.com"
    EmptyString EmptyString.

Definition synthetic_url (pathname : string) : URL.t :=
  URL.mk (fake_origin ++ pathname) "https:" "remix-isomorphic-link.com"
    pathname EmptyString EmptyString.

Definition contact_path : Path.t :=
  Path.mk (Some "/contact") (Some "?foo=bar") (Some "#baz").

Definition empty_path : Path.t :=
  Path.mk (Some EmptyString) (Some "?foo=bar") (Some "#baz").

Definition example_context : IsomorphicNavContextProps.t :=
  IsomorphicNavContextProps.mk (Some "example.com") (Some true) (Some true)
    (Some "intent").

(** Props of the caller that try to override what the component computes. *)
Definition example_rest : object unit unit :=
  [("href", VString "/elsewhere"); ("target", VString "_self");
   ("prefetch", VString "render")]%list.

Definition example_className : option ClassNameProp :=
  Some (ClassNameFn (fun isActive => if isActive then Some "active" else None)).

Definition example_link (to : To) (isExternal : option bool)
    : IsomorphicLinkProps unit unit unit :=
  mkIsomorphicLinkProps to isExternal example_className None VUndefined
    VUndefined VUndefined VUndefined VUndefined
    (Some (ChildrenFn (fun _ => tt))) example_rest.

(** * Properties *)

(** ** Strings *)

Lemma startsWith_cons (c : ascii) (s : string) :
  JS.startsWith (String c s) "/" = Ascii.eqb c "/".
Proof.
  unfold JS.startsWith; cbn [String.prefix].
  destruct (ascii_dec "/" c) as [<- | Hne].
  - now destruct s.
  - symmetry; apply Ascii.eqb_neq; congruence.
Qed.

Lemma startsWith_append (s t : string) :
  JS.startsWith s "/" = true -> JS.startsWith (s ++ t) "/" = true.
Proof.
  destruct s as [| c s]; [discriminate |].
  change (String c s ++ t) with (String c (s ++ t)).
  now rewrite !startsWith_cons.
Qed.

Lemma startsWith_slash_inv (s : string) :
  JS.startsWith s "/" = true -> exists t, s = String "/" t.
Proof.
  destruct s as [| c s]; [discriminate |].
  rewrite startsWith_cons; intros H%Ascii.eqb_eq; subst; now exists s.
Qed.

Lemma append_empty_r (s : string) : s ++ EmptyString = s.
Proof. induction s; simpl; congruence. Qed.

Lemma append_assoc (s t u : string) : (s ++ t) ++ u = s ++ t ++ u.
Proof. induction s; simpl; congruence. Qed.

Lemma length_snoc (q : string) (c : ascii) :
  String.length (q ++ String c EmptyString) = S (String.length q).
Proof. induction q; simpl; congruence. Qed.

Lemma get_snoc (q : string) (c : ascii) :
  String.get (String.length q) (q ++ String c EmptyString) = Some c.
Proof. induction q; simpl; auto. Qed.

(** Every string is empty or has a last code unit. *)
Lemma string_snoc_cases (p : string) :
  p = EmptyString \/ exists q c, p = q ++ String c EmptyString.
Proof.
  induction p as [| a p IH]; [now left | right].
  destruct IH as [-> | (q & c & ->)].
  - now exists EmptyString, a.
  - now exists (String a q), c.
Qed.

Lemma strict_eq_true (a : string) (b : option string) :
  JS.strict_eq a b = true <-> b = Some a.
Proof.
  destruct b as [b |]; simpl.
  - rewrite String.eqb_eq; split; congruence.
  - split; discriminate.
Qed.

Lemma strict_eq_false (a : string) (b : option string) :
  JS.strict_eq a b = false <-> b <> Some a.
Proof.
  rewrite <- strict_eq_true; destruct (JS.strict_eq a b); split;
    congruence.
Qed.

(** ** [addFinalSlash] *)

Lemma addFinalSlash_snoc (q : string) (c : ascii) :
  addFinalSlash (q ++ String c EmptyString) =
  if Ascii.eqb c "/" then q ++ String c EmptyString
  else (q ++ String c EmptyString) ++ "/".
Proof.
  unfold addFinalSlash, JS.truthy_string, JS.index.
  rewrite length_snoc; simpl.
  now rewrite Nat.sub_0_r, get_snoc.
Qed.

Lemma addFinalSlash_idem (p : string) :
  addFinalSlash (addFinalSlash p) = addFinalSlash p.
Proof.
  destruct (string_snoc_cases p) as [-> | (q & c & ->)]; [reflexivity |].
  rewrite addFinalSlash_snoc.
  destruct (Ascii.eqb c "/") eqn:E.
  - now rewrite addFinalSlash_snoc, E.
  - now rewrite (addFinalSlash_snoc _ "/").
Qed.

Lemma addFinalSlash_startsWith (p : string) :
  JS.startsWith p "/" = true -> JS.startsWith (addFinalSlash p) "/" = true.
Proof.
  intros H.
  destruct (string_snoc_cases p) as [-> | (q & c & ->)]; [reflexivity |].
  rewrite addFinalSlash_snoc.
  destruct (Ascii.eqb c "/"); [assumption | now apply startsWith_append].
Qed.

(** C4. [addFinalSlash] maps the empty pathname to the single slash, returns
    a pathname that ends in a slash unchanged, appends a slash to a pathname
    that ends in any other code unit, and is idempotent. *)
Theorem addFinalSlash_spec (q : string) (c : ascii) :
  addFinalSlash EmptyString = "/" /\
  addFinalSlash (q ++ "/") = q ++ "/" /\
  (c <> "/"%char ->
   addFinalSlash (q ++ String c EmptyString) = q ++ String c EmptyString ++ "/") /\
  (forall p, addFinalSlash (addFinalSlash p) = addFinalSlash p).
Proof.
  repeat split.
  - now rewrite addFinalSlash_snoc.
  - intros Hc%Ascii.eqb_neq.
    now rewrite addFinalSlash_snoc, Hc, append_assoc.
  - apply addFinalSlash_idem.
Qed.

Lemma addFinalSlash_spec_witness :
  addFinalSlash "/contact" = "/contact/" /\
  addFinalSlash "/contact/" = "/contact/".
Proof.
  split.
  - apply (addFinalSlash_spec "/contac" "t"); discriminate.
  - apply (addFinalSlash_spec "/contact" "t").
Defined.

(** ** [parseHref] and [sanitizeTo], for any [URL] constructor *)

Section LinkFacts.

Variable URL_new : string -> option URL.t.

Lemma parseHref_url (href : string) (url : URL.t) host isExternal :
  URL_new href = Some url ->
  parseHref URL_new href host isExternal = Ok (urlToHref url host).
Proof.
  intros H; unfold parseHref, isUrl, new_URL.
  now rewrite H.
Qed.

Lemma parseHref_opaque (href : string) host isExternal :
  URL_new href = None ->
  JS.truthy_obool isExternal = true ->
  parseHref URL_new href host isExternal =
  Ok (HREF.mk href EmptyString EmptyString EmptyString EmptyString
        EmptyString true true).
Proof.
  intros H F; unfold parseHref, isUrl, new_URL.
  now rewrite H, F.
Qed.

Lemma parseHref_relative (href : string) (url : URL.t) host isExternal :
  URL_new href = None ->
  JS.truthy_obool isExternal = false ->
  URL_new (fakeUrl href host) = Some url ->
  parseHref URL_new href host isExternal =
  Ok (HREF.mk href EmptyString EmptyString (URL.pathname url)
        (URL.search url) (URL.hash url) false
        (JS.startsWith (sanitizedHref href host) "/")).
Proof.
  intros H F U; unfold parseHref, isUrl, new_URL.
  now rewrite H, F, U.
Qed.

Lemma sanitizeTo_string (s : string) ts flag host :
  sanitizeTo URL_new (ToString s) ts flag host =
  href <- parseHref URL_new s host flag ;;
  if HREF.isOutgoing href then Ok (true, ToString s)
  else Ok (false,
           ToString (router_target ts (HREF.pathname href)
                       (HREF.search href) (HREF.hash href))).
Proof.
  unfold sanitizeTo, router_target; simpl.
  destruct (parseHref URL_new s host flag) as [h |]; simpl; [| reflexivity].
  destruct (HREF.isOutgoing h); [reflexivity |].
  now destruct ts as [[|] |].
Qed.

Lemma sanitizeTo_url (s : string) (url : URL.t) ts flag host :
  URL_new s = Some url ->
  sanitizeTo URL_new (ToString s) ts flag host =
  if JS.strict_eq (URL.host url) host
  then Ok (false,
           ToString (router_target ts (URL.pathname url) (URL.search url)
                       (URL.hash url)))
  else Ok (true, ToString s).
Proof.
  intros H.
  rewrite sanitizeTo_string, (parseHref_url _ _ _ _ H); simpl.
  unfold isInHostDomain.
  now destruct (JS.strict_eq (URL.host url) host).
Qed.

Lemma router_target_startsWith ts (pathname search hash : string) :
  JS.startsWith pathname "/" = true ->
  JS.startsWith (router_target ts pathname search hash) "/" = true.
Proof.
  intros H; unfold router_target; apply startsWith_append.
  destruct ts as [[|] |]; auto using addFinalSlash_startsWith.
Qed.

(** C1 (amended). For a string that parses as an absolute URL the
    explicit external flag changes nothing: with the flag set to true the
    target is outgoing, and returned unchanged, exactly when the parsed
    host differs from the configured host; on the configured host it is
    internal and the router target is built from the parsed pathname,
    search and hash. *)
Theorem sanitizeTo_url_flag_ignored (s : string) (url : URL.t) ts host :
  URL_new s = Some url ->
  sanitizeTo URL_new (ToString s) ts (Some true) host =
    sanitizeTo URL_new (ToString s) ts None host /\
  sanitizeTo URL_new (ToString s) ts (Some true) host =
    if JS.strict_eq (URL.host url) host
    then Ok (false,
             ToString (router_target ts (URL.pathname url)
                         (URL.search url) (URL.hash url)))
    else Ok (true, ToString s).
Proof.
  intros H; now rewrite !(sanitizeTo_url _ _ _ _ _ H).
Qed.

(** C2. A string that is not an absolute URL and carries no explicit
    external flag is classified internal, whatever the configured host:
    [parseHref] returns a record with [isOutgoing = false] and
    [sanitizeTo] returns [false] as its first component.  (The synthetic
    URL built from the target is assumed to parse, as it does on the
    platform; see [WHATWGFacts.parse_fakeUrl].) *)
Theorem parseHref_non_url_internal (s : string) (url : URL.t) ts flag host :
  URL_new s = None ->
  JS.truthy_obool flag = false ->
  URL_new (fakeUrl s host) = Some url ->
  (exists h, parseHref URL_new s host flag = Ok h /\ HREF.isOutgoing h = false) /\
  (exists t, sanitizeTo URL_new (ToString s) ts flag host = Ok (false, t)).
Proof.
  intros H F U; split.
  - eexists; split; [apply (parseHref_relative _ _ _ _ H F U) |].
    reflexivity.
  - rewrite sanitizeTo_string, (parseHref_relative _ _ _ _ H F U); simpl.
    eexists; reflexivity.
Qed.

(** C3. A structured path with the explicit external flag set to true
    makes [sanitizeTo] throw the configuration-misuse error, for every
    host and trailing-slash policy. *)
Theorem sanitizeTo_path_external_throws (p : Path.t) ts host :
  sanitizeTo URL_new (ToPath p) ts (Some true) host =
  Throw (Error ("remix-isomorphic-link: " ++ misuse_message)).
Proof. reflexivity. Qed.

(** C5. A string that parses as an absolute URL whose host is not the
    configured host (or with no configured host) is outgoing and is
    returned unchanged, for every trailing-slash policy and flag. *)
Theorem sanitizeTo_foreign_url (s : string) (url : URL.t) ts flag host :
  URL_new s = Some url ->
  host <> Some (URL.host url) ->
  sanitizeTo URL_new (ToString s) ts flag host = Ok (true, ToString s).
Proof.
  intros H N%strict_eq_false.
  now rewrite (sanitizeTo_url _ _ _ _ _ H), N.
Qed.

(** C6. A string that parses as an absolute URL on the configured host,
    without the explicit external flag, is internal, and the router target
    is the parsed pathname (normalised when the policy is on) followed by
    the parsed search and hash. *)
Theorem sanitizeTo_own_url (s : string) (url : URL.t) ts flag host :
  URL_new s = Some url ->
  host = Some (URL.host url) ->
  JS.truthy_obool flag = false ->
  sanitizeTo URL_new (ToString s) ts flag host =
  Ok (false,
      ToString ((match ts with
                 | Some true => addFinalSlash (URL.pathname url)
                 | _ => URL.pathname url
                 end) ++ URL.search url ++ URL.hash url)).
Proof.
  intros H E%strict_eq_true _.
  now rewrite (sanitizeTo_url _ _ _ _ _ H), E.
Qed.

(** C7. A string that is not an absolute URL, with the explicit external
    flag set to true, is outgoing and returned verbatim; [parseHref]
    leaves every parsed component empty. *)
Theorem sanitizeTo_non_url_external (s : string) ts host :
  URL_new s = None ->
  parseHref URL_new s host (Some true) =
    Ok (HREF.mk s EmptyString EmptyString EmptyString EmptyString
          EmptyString true true) /\
  sanitizeTo URL_new (ToString s) ts (Some true) host = Ok (true, ToString s).
Proof.
  intros H.
  assert (P := parseHref_opaque s host (Some true) H eq_refl).
  split; [exact P |].
  now rewrite sanitizeTo_string, P.
Qed.

(** C8 (amended). A structured path without the explicit external flag
    is internal and comes back as a structured path with the search and
    hash of the input; its pathname goes through [addFinalSlash] when the
    policy is on and the pathname is present and not empty, and is left as
    it is otherwise (an empty pathname stays empty). *)
Theorem sanitizeTo_path_internal (p : Path.t) ts flag host :
  JS.truthy_obool flag = false ->
  sanitizeTo URL_new (ToPath p) ts flag host =
  Ok (false,
      ToPath {| Path.pathname :=
                  match ts, Path.pathname p with
                  | Some true, Some (String c s) =>
                      Some (addFinalSlash (String c s))
                  | _, pathname => pathname
                  end;
                Path.search := Path.search p;
                Path.hash := Path.hash p |}).
Proof.
  intros F; unfold sanitizeTo; rewrite F, andb_false_r.
  destruct p as [[[| c s] |] search hash], ts as [[|] |]; reflexivity.
Qed.

(** C9 (amended). When a string target is classified internal, the string
    [sanitizeTo] returns begins with a slash provided the pathname of the
    URL whose components the code used does: the target itself when it is
    an absolute URL, the synthetic URL otherwise. *)
Theorem sanitizeTo_internal_leading_slash (s : string) (url : URL.t)
    ts flag host (t : To) :
  URL_new (if isUrl URL_new s then s else fakeUrl s host) = Some url ->
  JS.startsWith (URL.pathname url) "/" = true ->
  sanitizeTo URL_new (ToString s) ts flag host = Ok (false, t) ->
  exists r, t = ToString r /\ JS.startsWith r "/" = true.
Proof.
  intros U P R.
  unfold isUrl, new_URL in U.
  destruct (URL_new s) as [url' |] eqn:E.
  - rewrite (sanitizeTo_url _ _ _ _ _ E) in R.
    assert (url' = url) as -> by congruence.
    destruct (JS.strict_eq (URL.host url) host); [| discriminate].
    injection R as <-; eexists; split; [reflexivity |].
    now apply router_target_startsWith.
  - rewrite sanitizeTo_string in R.
    destruct (JS.truthy_obool flag) eqn:F.
    + now rewrite (parseHref_opaque _ _ _ E F) in R.
    + rewrite (parseHref_relative _ _ _ _ E F U) in R; simpl in R.
      injection R as <-; eexists; split; [reflexivity |].
      now apply router_target_startsWith.
Qed.

(** C10. The host of an absolute URL is compared with the configured host
    by strict equality: the target is internal exactly when the configured
    host is the parsed host.  A URL that parses with the empty host (as
    mailto: and tel: addresses do) is therefore outgoing for every
    configured host other than the empty string, also when no host is
    configured, and internal when the configured host is the empty
    string. *)
Theorem host_comparison_strict (s : string) (url : URL.t) host flag :
  URL_new s = Some url ->
  parseHref URL_new s host flag = Ok (urlToHref url host) /\
  (HREF.isOutgoing (urlToHref url host) = false <->
   host = Some (URL.host url)) /\
  (URL.host url = EmptyString ->
   (host <> Some EmptyString ->
    HREF.isOutgoing (urlToHref url host) = true) /\
   (host = Some EmptyString ->
    HREF.isOutgoing (urlToHref url host) = false)).
Proof.
  intros H; split; [now apply parseHref_url |].
  simpl; unfold isInHostDomain; rewrite negb_false_iff, negb_true_iff.
  split; [apply strict_eq_true |].
  intros ->; split.
  - apply strict_eq_false.
  - apply strict_eq_true.
Qed.

End LinkFacts.

(** ** The model of the [URL] constructor *)

Module WHATWGFacts.

Import WHATWG.
Local Open Scope list_scope.

Lemma drop_while_app_stop (p : ascii -> bool) (a b : list ascii) (c : ascii) :
  p c = false -> drop_while p (a ++ c :: b) = drop_while p a ++ c :: b.
Proof.
  intros H; induction a as [| x a IH]; simpl.
  - now rewrite H.
  - now destruct (p x).
Qed.

(** Trimming and stripping leave a prefix without blanks in place. *)
Lemma strip_prefix (pre x : list ascii) :
  pre <> [] ->
  forallb (fun c => negb (is_c0_or_space c)) pre = true ->
  exists y, strip (pre ++ x) = pre ++ y.
Proof.
  intros Hne Hall.
  assert (Hfilter : filter (fun c => negb (is_tab_or_newline c)) pre = pre).
  { clear Hne; induction pre as [| c pre IH]; [reflexivity |].
    simpl in Hall; apply andb_prop in Hall as [Hc Hall].
    simpl; rewrite (IH Hall).
    replace (is_tab_or_newline c) with false; [reflexivity |].
    unfold is_tab_or_newline, is_c0_or_space in *.
    apply negb_true_iff, Nat.leb_gt in Hc.
    symmetry; rewrite !orb_false_iff, !Nat.eqb_neq; lia. }
  assert (Hrev : exists c r, rev pre = c :: r /\ is_c0_or_space c = false).
  { destruct (rev pre) as [| c r] eqn:E.
    - apply (f_equal (@rev ascii)) in E; rewrite rev_involutive in E.
      contradiction.
    - exists c, r; split; [reflexivity |].
      rewrite forallb_forall in Hall.
      apply negb_true_iff, Hall, in_rev; rewrite E; now left. }
  destruct Hrev as (c & r & Er & Hc).
  destruct pre as [| c0 pre']; [contradiction |].
  simpl in Hall; apply andb_prop in Hall as [Hc0 _].
  apply negb_true_iff in Hc0.
  unfold strip, trim.
  change ((c0 :: pre') ++ x) with (c0 :: pre' ++ x).
  cbn [drop_while]; rewrite Hc0.
  change (c0 :: pre' ++ x) with ((c0 :: pre') ++ x).
  rewrite rev_app_distr, Er, (drop_while_app_stop _ _ _ _ Hc).
  rewrite rev_app_distr, <- Er, rev_involutive, filter_app, Hfilter.
  eexists; reflexivity.
Qed.

Lemma cut_app (stop : ascii -> bool) (pre x : list ascii) :
  forallb (fun c => negb (stop c)) pre = true ->
  cut stop (pre ++ x) = (pre ++ fst (cut stop x), snd (cut stop x)).
Proof.
  induction pre as [| c pre IH]; simpl; intros H.
  - now destruct (cut stop x).
  - apply andb_prop in H as [Hc H]; apply negb_true_iff in Hc.
    now rewrite Hc, (IH H).
Qed.

Lemma split_on_nonempty (sep : ascii -> bool) (l : list ascii) :
  split_on sep l <> [].
Proof.
  destruct l as [| c l]; simpl; [discriminate |].
  destruct (sep c); [discriminate |].
  destruct (split_on sep l); discriminate.
Qed.

Lemma walk_nonempty (segs stack : list (list ascii)) :
  segs <> [] -> walk segs stack <> [].
Proof.
  revert stack; induction segs as [| seg rest IH]; [contradiction |].
  intros stack _; destruct rest as [| seg' rest].
  - simpl.
    destruct (is_double_dot seg); [| destruct (is_single_dot seg)];
      simpl; intros E; apply app_eq_nil in E as [_ E]; discriminate.
  - cbn [walk].
    destruct (is_double_dot seg); [| destruct (is_single_dot seg)];
      apply IH; discriminate.
Qed.

Lemma path_list_special_nonempty (p : list ascii) : path_list true p <> [].
Proof.
  destruct p as [| c p]; [discriminate |].
  unfold path_list; apply walk_nonempty.
  intros E%map_eq_nil; revert E; apply split_on_nonempty.
Qed.

Lemma serialize_path_nonempty (segs : list (list ascii)) :
  segs <> [] -> exists l, serialize_path segs = "/"%char :: l.
Proof.
  destruct segs as [| seg segs]; [contradiction | intros _].
  simpl; eexists; reflexivity.
Qed.

Lemma special_pathname (p : list ascii) :
  JS.startsWith (str (serialize_path (path_list true p))) "/" = true.
Proof.
  destruct (serialize_path_nonempty _ (path_list_special_nonempty p))
    as [l ->].
  unfold str; cbn [string_of_list_ascii]; now rewrite startsWith_cons.
Qed.

Lemma list_ascii_of_string_app (a b : string) :
  list_ascii_of_string (a ++ b) =
  list_ascii_of_string a ++ list_ascii_of_string b.
Proof. induction a; simpl; congruence. Qed.

Lemma split_scheme_synthetic (x : list ascii) :
  split_scheme (synthetic_prefix ++ x) =
  Some (list_ascii_of_string "https",
        synthetic_authority ++ "/"%char :: x).
Proof. reflexivity. Qed.

Lemma parse_special_synthetic (x : list ascii) query fragment :
  exists url,
    parse_special (list_ascii_of_string "https")
      (synthetic_authority ++ "/"%char :: x) query fragment = Some url /\
    JS.startsWith (URL.pathname url) "/" = true.
Proof.
  unfold parse_special.
  change (drop_while is_any_slash (synthetic_authority ++ "/"%char :: x))
    with (list_ascii_of_string "remix-isomorphic-link.com" ++ "/"%char :: x).
  change (span is_any_slash
            (list_ascii_of_string "remix-isomorphic-link.com" ++
             "/"%char :: x))
    with (list_ascii_of_string "remix-isomorphic-link.com", "/"%char :: x).
  cbv beta iota.
  replace (parse_authority (str (list_ascii_of_string "https")) true
             (list_ascii_of_string "remix-isomorphic-link.com"))
    with (Some (mk_authority []
                  (list_ascii_of_string "remix-isomorphic-link.com") None))
    by (vm_compute; reflexivity).
  eexists; split; [reflexivity |].
  apply special_pathname.
Qed.

Lemma cut_synthetic (stop : ascii -> bool) (x : list ascii) :
  forallb (fun c => negb (stop c)) (synthetic_authority ++ ["/"%char])
    = true ->
  cut stop (synthetic_authority ++ "/"%char :: x) =
  (synthetic_authority ++ "/"%char :: fst (cut stop x), snd (cut stop x)).
Proof.
  intros H.
  change (synthetic_authority ++ "/"%char :: x)
    with ((synthetic_authority ++ ["/"%char]) ++ x).
  now rewrite (cut_app _ _ _ H).
Qed.

(** The constructor accepts every URL on the synthetic origin, and the
    pathname of the result begins with a slash. *)
Lemma parse_synthetic (t : string) :
  exists url,
    parse (fake_origin ++ String "/" t) = Some url /\
    JS.startsWith (URL.pathname url) "/" = true.
Proof.
  unfold parse.
  replace (fake_origin ++ String "/" t)%string
    with ((fake_origin ++ "/") ++ t)%string by reflexivity.
  rewrite list_ascii_of_string_app.
  change (list_ascii_of_string (fake_origin ++ "/")) with synthetic_prefix.
  destruct (strip_prefix synthetic_prefix (list_ascii_of_string t))
    as [y Ey]; [discriminate | reflexivity |].
  unfold parse_list; rewrite Ey, split_scheme_synthetic.
  rewrite (cut_synthetic (Ascii.eqb "#")) by reflexivity.
  rewrite (cut_synthetic (Ascii.eqb "?")) by reflexivity.
  change (String.eqb (str (list_ascii_of_string "https")) "file")
    with false.
  change (is_special (str (list_ascii_of_string "https"))) with true.
  cbv beta iota.
  apply parse_special_synthetic.
Qed.

(** On the model the synthetic URL of every target parses, to a pathname
    that begins with a slash. *)
Lemma parse_fakeUrl (s : string) (host : option string) :
  exists url,
    parse (fakeUrl s host) = Some url /\
    JS.startsWith (URL.pathname url) "/" = true.
Proof.
  unfold fakeUrl.
  destruct (JS.startsWith (sanitizedHref s host) "/") eqn:E.
  - apply startsWith_slash_inv in E as [t ->]; apply parse_synthetic.
  - apply parse_synthetic.
Qed.

End WHATWGFacts.

(** ** The program on the model *)

(** On the model, every string that is not an absolute URL and carries no
    explicit external flag is internal, and its router target begins with a
    slash. *)
Lemma model_non_url_internal (s : string) ts flag host :
  WHATWG.parse s = None ->
  JS.truthy_obool flag = false ->
  exists r,
    sanitizeTo WHATWG.parse (ToString s) ts flag host
      = Ok (false, ToString r) /\
    JS.startsWith r "/" = true.
Proof.
  intros H F.
  destruct (WHATWGFacts.parse_fakeUrl s host) as (url & U & P).
  rewrite sanitizeTo_string, (parseHref_relative _ _ _ _ _ H F U); simpl.
  eexists; split; [reflexivity |].
  now apply router_target_startsWith.
Qed.

(** The scenarios of the specification and of the repository's tests. *)

Example scenario_absolute_path :
  sanitizeTo WHATWG.parse (ToString "/contact") (Some false) None None
  = Ok (false, ToString "/contact").
Proof. vm_compute; reflexivity. Qed.

Example scenario_foreign_url :
  sanitizeTo WHATWG.parse (ToString "https://youtube.com") None None
    (Some "example.com")
  = Ok (true, ToString "https://youtube.com").
Proof. vm_compute; reflexivity. Qed.

Example scenario_relative_trailing_slash :
  sanitizeTo WHATWG.parse (ToString "contact") (Some true) None None
  = Ok (false, ToString "/contact/").
Proof. vm_compute; reflexivity. Qed.

Example scenario_mailto :
  sanitizeTo WHATWG.parse (ToString "mailto:a@b.com") None None
    (Some "example.com")
  = Ok (true, ToString "mailto:a@b.com").
Proof. vm_compute; reflexivity. Qed.

Example scenario_tel_no_host :
  sanitizeTo WHATWG.parse (ToString "tel:+188899956754") None None None
  = Ok (true, ToString "tel:+188899956754").
Proof. vm_compute; reflexivity. Qed.

Example scenario_bare_domain :
  sanitizeTo WHATWG.parse (ToString "youtube.com") None None None
  = Ok (false, ToString "/youtube.com").
Proof. vm_compute; reflexivity. Qed.

Example scenario_bare_domain_external :
  sanitizeTo WHATWG.parse (ToString "youtube.com") None (Some true) None
  = Ok (true, ToString "youtube.com").
Proof. vm_compute; reflexivity. Qed.

Example scenario_host_prefix_stripped :
  sanitizeTo WHATWG.parse (ToString "example.com/contact?foo=bar#baz")
    (Some true) None (Some "example.com")
  = Ok (false, ToString "/contact/?foo=bar#baz").
Proof. vm_compute; reflexivity. Qed.

(** The test [removes host if prop provided]: an absolute URL on the
    configured host with [isExternal] is rendered as an internal link. *)
Example scenario_test_removes_host :
  sanitizeTo WHATWG.parse (ToString "https://mydomain.com/contact") None
    (Some true) (Some "mydomain.com")
  = Ok (false, ToString "/contact").
Proof. vm_compute; reflexivity. Qed.

Example model_empty_host :
  option_map URL.host (WHATWG.parse "mailto:iron.man@gmail.com")
    = Some EmptyString /\
  option_map URL.host (WHATWG.parse "tel:+188899956754") = Some EmptyString.
Proof. split; vm_compute; reflexivity. Qed.

(** *** Instances of the theorems *)

Lemma sanitizeTo_url_flag_ignored_witness :
  sanitizeTo WHATWG.parse (ToString "https://example.com/contact") None
    (Some true) (Some "example.com")
  = sanitizeTo WHATWG.parse (ToString "https://example.com/contact") None
      None (Some "example.com") /\
  sanitizeTo WHATWG.parse (ToString "https://example.com/contact") None
    (Some true) (Some "example.com")
  = Ok (false, ToString "/contact").
Proof.
  apply (sanitizeTo_url_flag_ignored WHATWG.parse
           "https://example.com/contact" example_contact_url None
           (Some "example.com")).
  vm_compute; reflexivity.
Defined.

(** C1, as stated, fails: with the flag set to true the URL on the
    configured host is internal and its router target is the pathname. *)
Lemma explicit_flag_override_counterexample :
  sanitizeTo WHATWG.parse (ToString "https://example.com/contact") None
    (Some true) (Some "example.com")
  = Ok (false, ToString "/contact") /\
  sanitizeTo WHATWG.parse (ToString "https://example.com/contact") None
    (Some true) (Some "example.com")
  <> Ok (true, ToString "https://example.com/contact").
Proof. split; vm_compute; [reflexivity | discriminate]. Qed.

Lemma parseHref_non_url_internal_witness :
  (exists h,
     parseHref WHATWG.parse "youtube.com" (Some "example.com") None = Ok h /\
     HREF.isOutgoing h = false) /\
  (exists t,
     sanitizeTo WHATWG.parse (ToString "youtube.com") None None
       (Some "example.com") = Ok (false, t)).
Proof.
  apply (parseHref_non_url_internal WHATWG.parse "youtube.com"
           (synthetic_url "/youtube.com") None None (Some "example.com"));
    vm_compute; reflexivity.
Defined.

Lemma sanitizeTo_foreign_url_witness :
  sanitizeTo WHATWG.parse (ToString "https://youtube.com") (Some true) None
    (Some "example.com")
  = Ok (true, ToString "https://youtube.com").
Proof.
  apply (sanitizeTo_foreign_url WHATWG.parse "https://youtube.com"
           youtube_url).
  - vm_compute; reflexivity.
  - discriminate.
Defined.

Lemma sanitizeTo_own_url_witness :
  sanitizeTo WHATWG.parse (ToString "https://example.com/contact?foo=bar#baz")
    (Some true) None (Some "example.com")
  = Ok (false, ToString "/contact/?foo=bar#baz").
Proof.
  apply (sanitizeTo_own_url WHATWG.parse
           "https://example.com/contact?foo=bar#baz" example_query_url
           (Some true) None (Some "example.com"));
    vm_compute; reflexivity.
Defined.

Lemma sanitizeTo_non_url_external_witness :
  parseHref WHATWG.parse "youtube.com" None (Some true)
  = Ok (HREF.mk "youtube.com" EmptyString EmptyString EmptyString
          EmptyString EmptyString true true) /\
  sanitizeTo WHATWG.parse (ToString "youtube.com") (Some true) (Some true)
    None
  = Ok (true, ToString "youtube.com").
Proof.
  apply (sanitizeTo_non_url_external WHATWG.parse "youtube.com" (Some true)
           None).
  vm_compute; reflexivity.
Defined.

Lemma sanitizeTo_path_internal_witness :
  sanitizeTo WHATWG.parse (ToPath contact_path) (Some true) None None
  = Ok (false,
        ToPath (Path.mk (Some "/contact/") (Some "?foo=bar") (Some "#baz"))).
Proof.
  apply (sanitizeTo_path_internal WHATWG.parse contact_path (Some true) None
           None).
  reflexivity.
Defined.

(** C8, as stated, fails: with the policy on, the empty pathname of a
    structured path stays empty, where [addFinalSlash] gives a slash. *)
Lemma structured_empty_pathname_counterexample :
  sanitizeTo WHATWG.parse (ToPath empty_path) (Some true) None None
  = Ok (false, ToPath empty_path) /\
  Path.pathname empty_path <> Some (addFinalSlash EmptyString).
Proof. split; vm_compute; [reflexivity | discriminate]. Qed.

Lemma sanitizeTo_internal_leading_slash_witness :
  exists r, ToString "/contact" = ToString r /\ JS.startsWith r "/" = true.
Proof.
  apply (sanitizeTo_internal_leading_slash WHATWG.parse "contact"
           (synthetic_url "/contact") None None None (ToString "/contact"));
    vm_compute; reflexivity.
Defined.

(** C9, as stated, fails: a mailto: address is internal when the configured
    host is the empty string, and the string returned is its opaque path. *)
Lemma internal_leading_slash_counterexample :
  sanitizeTo WHATWG.parse (ToString "mailto:a@b.com") None None
    (Some EmptyString)
  = Ok (false, ToString "a@b.com") /\
  JS.startsWith "a@b.com" "/" = false.
Proof. split; vm_compute; reflexivity. Qed.

(** The same happens for a URL of a scheme that is not special and carries
    no path, on an ordinary configured host: the router target is empty. *)
Example scenario_custom_scheme_own_host :
  sanitizeTo WHATWG.parse (ToString "foo://example.com") None None
    (Some "example.com")
  = Ok (false, ToString EmptyString).
Proof. vm_compute; reflexivity. Qed.

Lemma host_comparison_strict_witness :
  parseHref WHATWG.parse "mailto:a@b.com" (Some "example.com") None
  = Ok (urlToHref mailto_url (Some "example.com")) /\
  HREF.isOutgoing (urlToHref mailto_url (Some "example.com")) = true /\
  HREF.isOutgoing (urlToHref mailto_url (Some EmptyString)) = false.
Proof.
  assert (P : WHATWG.parse "mailto:a@b.com" = Some mailto_url)
    by (vm_compute; reflexivity).
  split; [| split].
  - apply (host_comparison_strict WHATWG.parse "mailto:a@b.com" mailto_url
             (Some "example.com") None P).
  - apply (host_comparison_strict WHATWG.parse "mailto:a@b.com" mailto_url
             (Some "example.com") None P); [reflexivity | discriminate].
  - apply (host_comparison_strict WHATWG.parse "mailto:a@b.com" mailto_url
             (Some EmptyString) None P); reflexivity.
Defined.


(** * Further properties of the source *)

(** ** Strings *)

Lemma prefix_append (h rest : string) : String.prefix h (h ++ rest) = true.
Proof.
  induction h as [| c h IH]; cbn [String.prefix append].
  - now destruct rest.
  - now destruct (ascii_dec c c).
Qed.

Lemma prefix_inv (h s : string) :
  String.prefix h s = true -> exists rest, s = h ++ rest.
Proof.
  revert s; induction h as [| c h IH]; intros s H.
  - now exists s.
  - destruct s as [| d s]; [discriminate |].
    cbn [String.prefix] in H.
    destruct (ascii_dec c d) as [<- |]; [| discriminate].
    destruct (IH _ H) as [rest ->]; now exists rest.
Qed.

Lemma length_append (s t : string) :
  String.length (s ++ t) = String.length s + String.length t.
Proof. induction s; simpl; congruence. Qed.

Lemma substring_all (s : string) : String.substring 0 (String.length s) s = s.
Proof. induction s; simpl; congruence. Qed.

Lemma substring_append (h rest : string) :
  JS.substring (h ++ rest) (String.length h) = rest.
Proof.
  unfold JS.substring; rewrite length_append.
  replace (String.length h + String.length rest - String.length h)
    with (String.length rest) by lia.
  induction h as [| c h IH]; simpl; [apply substring_all | exact IH].
Qed.

Lemma truthy_string_nonempty (s : string) :
  JS.truthy_string s = true <-> s <> EmptyString.
Proof.
  destruct s; simpl; split; intros H;
    try discriminate; try reflexivity; now contradiction H.
Qed.

(** ** [addFinalSlash] *)

(** X1. [addFinalSlash] keeps every code unit of its argument and adds at
    most one: the result is the pathname itself or the pathname followed by
    a slash, it always ends in a slash, and it is never empty. *)
Theorem addFinalSlash_shape (p : string) :
  (addFinalSlash p = p \/ addFinalSlash p = p ++ "/") /\
  (exists q, addFinalSlash p = q ++ "/") /\
  addFinalSlash p <> EmptyString.
Proof.
  destruct (string_snoc_cases p) as [-> | (q & c & ->)].
  - repeat split; [now right | now exists EmptyString | discriminate].
  - rewrite addFinalSlash_snoc.
    destruct (Ascii.eqb_spec c "/") as [-> | _].
    + repeat split; [now left | now exists q | now destruct q].
    + repeat split; [now right | eexists; reflexivity | now destruct q].
Qed.

Lemma addFinalSlash_truthy (p : string) :
  JS.truthy_string (addFinalSlash p) = true.
Proof.
  destruct (string_snoc_cases p) as [-> | (q & c & ->)]; [reflexivity |].
  rewrite addFinalSlash_snoc.
  destruct (Ascii.eqb c "/"); now destruct q.
Qed.

(** ** Host stripping *)

Lemma sanitizedHref_append (h rest : string) :
  h <> EmptyString -> sanitizedHref (h ++ rest) (Some h) = rest.
Proof.
  intros Hne%truthy_string_nonempty.
  unfold sanitizedHref, JS.startsWith.
  now rewrite Hne, prefix_append, substring_append.
Qed.

(** X2. The only thing [parseHref] removes from a target that is not a URL
    is the configured host itself, as a prefix, whatever follows it: the
    string it goes on with is the target minus a prefix that is empty or
    the configured host, and a target that begins with the (non-empty)
    configured host loses exactly that prefix. *)
Theorem sanitizedHref_strips_host_prefix (href h rest : string)
    (host : option string) :
  (exists pre,
     href = pre ++ sanitizedHref href host /\
     (pre = EmptyString \/ host = Some pre)) /\
  (h <> EmptyString -> sanitizedHref (h ++ rest) (Some h) = rest).
Proof.
  split.
  - unfold sanitizedHref.
    destruct host as [h' |]; [| now exists EmptyString; auto].
    destruct (JS.truthy_string h' && JS.startsWith href h') eqn:E;
      [| now exists EmptyString; auto].
    apply andb_prop in E as [_ E].
    destruct (prefix_inv _ _ E) as [r ->].
    exists h'; rewrite substring_append; auto.
  - apply sanitizedHref_append.
Qed.

Lemma fakeUrl_host_prefix (h rest : string) :
  h <> EmptyString -> fakeUrl (h ++ rest) (Some h) = fakeUrl rest None.
Proof.
  intros Hne; unfold fakeUrl.
  now rewrite (sanitizedHref_append h rest Hne).
Qed.

Section MoreLinkFacts.

Variable URL_new : string -> option URL.t.

Lemma sanitizeTo_relative (s : string) ts flag host :
  URL_new s = None ->
  JS.truthy_obool flag = false ->
  sanitizeTo URL_new (ToString s) ts flag host =
  url <- new_URL URL_new (fakeUrl s host) ;;
  Ok (false,
      ToString (router_target ts (URL.pathname url) (URL.search url)
                  (URL.hash url))).
Proof.
  intros H F; rewrite sanitizeTo_string.
  unfold parseHref, isUrl, new_URL; rewrite H, F.
  now destruct (URL_new (fakeUrl s host)).
Qed.

(** X3. For a target that is not a URL, the configured host as a prefix
    makes no difference: the target [host ++ rest] under that host is
    treated exactly as [rest] with no host configured. *)
Theorem sanitizeTo_host_prefix_equiv (h rest : string) ts flag :
  h <> EmptyString ->
  URL_new (h ++ rest) = None ->
  URL_new rest = None ->
  JS.truthy_obool flag = false ->
  sanitizeTo URL_new (ToString (h ++ rest)) ts flag (Some h) =
  sanitizeTo URL_new (ToString rest) ts flag None.
Proof.
  intros Hne H1 H2 F.
  now rewrite !sanitizeTo_relative, fakeUrl_host_prefix.
Qed.

(** X4. A relative target is resolved against the root: without a
    configured host, a target that is not a URL and has no leading slash is
    treated exactly as the same target with a leading slash. *)
Theorem sanitizeTo_relative_is_root (s : string) ts flag :
  JS.startsWith s "/" = false ->
  URL_new s = None ->
  URL_new (String "/" s) = None ->
  JS.truthy_obool flag = false ->
  sanitizeTo URL_new (ToString s) ts flag None =
  sanitizeTo URL_new (ToString (String "/" s)) ts flag None.
Proof.
  intros R H1 H2 F.
  rewrite !sanitizeTo_relative by assumption.
  unfold fakeUrl, sanitizedHref.
  now rewrite R, startsWith_cons.
Qed.

(** X5. For an internal target that is not a URL, the string returned is
    the pathname of the synthetic URL, with the final slash added when the
    policy is on, followed by its search and then its hash: the slash goes
    before the query. *)
Theorem sanitizeTo_relative_target (s : string) (url : URL.t) ts flag host :
  URL_new s = None ->
  JS.truthy_obool flag = false ->
  URL_new (fakeUrl s host) = Some url ->
  sanitizeTo URL_new (ToString s) ts flag host =
  Ok (false,
      ToString ((match ts with
                 | Some true => addFinalSlash (URL.pathname url)
                 | _ => URL.pathname url
                 end) ++ URL.search url ++ URL.hash url)).
Proof.
  intros H F U.
  rewrite (sanitizeTo_relative _ _ _ _ H F); unfold new_URL.
  now rewrite U.
Qed.

Lemma sanitizeTo_outgoing (to : To) ts flag host (t : To) :
  sanitizeTo URL_new to ts flag host = Ok (true, t) ->
  t = to /\ exists s, to = ToString s.
Proof.
  destruct to as [s | p].
  - rewrite sanitizeTo_string.
    destruct (parseHref URL_new s host flag) as [h |]; [| discriminate].
    simpl; destruct (HREF.isOutgoing h); [| discriminate].
    intros [= <-]; split; [reflexivity | now exists s].
  - unfold sanitizeTo; simpl.
    destruct (JS.truthy_obool flag); discriminate.
Qed.

(** X6. Whatever [sanitizeTo] classifies as outgoing it returns untouched:
    the target returned is the argument itself, and the argument is a
    string, never a structured path.  (So the casts [as string] of the
    callers are safe.) *)
Theorem sanitizeTo_outgoing_is_input (to : To) ts flag host (t : To) :
  sanitizeTo URL_new to ts flag host = Ok (true, t) ->
  t = to /\ exists s, to = ToString s.
Proof. apply sanitizeTo_outgoing. Qed.

(** X7. [sanitizeTo] throws in two cases only: the misuse error for a
    structured path with a truthy flag, and the [TypeError] of the [URL]
    constructor for a string without the flag when neither the string nor
    the synthetic URL built from it parses. *)
Theorem sanitizeTo_throws_iff (to : To) ts flag host (e : exn) :
  sanitizeTo URL_new to ts flag host = Throw e <->
  (is_string to = false /\ JS.truthy_obool flag = true /\
   e = Error ("remix-isomorphic-link: " ++ misuse_message)) \/
  (exists s, to = ToString s /\ URL_new s = None /\
             JS.truthy_obool flag = false /\
             URL_new (fakeUrl s host) = None /\ e = TypeError).
Proof.
  destruct to as [s | p].
  - rewrite sanitizeTo_string; unfold parseHref, isUrl, new_URL.
    split.
    + destruct (URL_new s) eqn:H; simpl.
      { destruct (negb _); discriminate. }
      destruct (JS.truthy_obool flag) eqn:F; simpl; [discriminate |].
      destruct (URL_new (fakeUrl s host)) eqn:U; simpl; [discriminate |].
      intros [= <-]; right; now exists s.
    + intros [(S & _) | (s' & [= <-] & H & F & U & ->)]; [discriminate |].
      now rewrite H, F, U.
  - unfold sanitizeTo; simpl. split.
    + destruct (JS.truthy_obool flag); [| discriminate].
      intros [= <-]; now left.
    + intros [(_ & F & ->) | (s & S & _)]; [| discriminate].
      now rewrite F.
Qed.

(** X8. The trailing-slash policy never changes the classification: for
    two policies [sanitizeTo] throws the same exception or returns the same
    first component. *)
Theorem classification_ignores_policy (to : To) ts ts' flag host :
  classification (sanitizeTo URL_new to ts flag host) =
  classification (sanitizeTo URL_new to ts' flag host).
Proof.
  destruct to as [s | p].
  - rewrite !sanitizeTo_string.
    destruct (parseHref URL_new s host flag) as [h |]; [| reflexivity].
    simpl; now destruct (HREF.isOutgoing h).
  - unfold sanitizeTo; simpl.
    now destruct (JS.truthy_obool flag).
Qed.

(** X9. Normalising a structured path twice is normalising it once: the
    path [sanitizeTo] returns for a structured path is returned unchanged
    when handed to [sanitizeTo] again. *)
Theorem sanitizeTo_path_idempotent (p : Path.t) ts flag host :
  JS.truthy_obool flag = false ->
  exists q,
    sanitizeTo URL_new (ToPath p) ts flag host = Ok (false, ToPath q) /\
    sanitizeTo URL_new (ToPath q) ts flag host = Ok (false, ToPath q).
Proof.
  intros F; unfold sanitizeTo; rewrite F; simpl.
  eexists; split; [reflexivity |].
  destruct p as [[pathname |] search hash], ts as [[|] |]; simpl;
    try reflexivity.
  - destruct (JS.truthy_string pathname) eqn:T; simpl.
    + now rewrite addFinalSlash_truthy, addFinalSlash_idem.
    + now rewrite T.
Qed.

End MoreLinkFacts.

(** ** The hooks and the link component *)

Section ComponentFacts.

Variable URL_new : string -> option URL.t.
Variables CSSProperties ReactNode NavigateOptions Other : Type.

Local Open Scope list_scope.

Lemma prop_app (key : string) (o1 o2 : object CSSProperties Other) :
  prop key (o1 ++ o2) =
  match prop key o2 with
  | Some v => Some v
  | None => prop key o1
  end.
Proof.
  induction o1 as [| [k v] o1 IH]; simpl.
  - now destruct (prop key o2).
  - rewrite IH; now destruct (prop key o2).
Qed.

(** X10. [isomorphicNavigate] assigns [window.location.href] exactly when
    [sanitizeTo] classifies the target as outgoing, and then assigns the
    caller's own target; otherwise it calls the router with the sanitised
    target and the caller's options; when [sanitizeTo] throws it does
    neither. *)
Theorem isomorphicNavigate_dispatch
    (context : IsomorphicNavContextProps.t) (to : To)
    (options : option NavigateOptions) (props : option IsomorphicProps.t) :
  isomorphicNavigate URL_new context to options props =
  match sanitizeTo URL_new to
          (IsomorphicNavContextProps.useTrailingSlash context)
          (match props with
           | Some p => IsomorphicProps.isExternal p
           | None => None
           end)
          (IsomorphicNavContextProps.host context) with
  | Ok (true, _) => Ok (LocationAssign to)
  | Ok (false, t) => Ok (RouterNavigate t options)
  | Throw e => Throw e
  end.
Proof.
  unfold isomorphicNavigate.
  destruct (sanitizeTo URL_new to _ _ _) as [[[|] t] |] eqn:E; simpl;
    try reflexivity.
  now destruct (sanitizeTo_outgoing _ _ _ _ _ _ E) as [-> _].
Qed.

(** X11. For an outgoing target the component renders an anchor whose
    [href] is the target string as the caller wrote it, whose class is the
    external marker classes followed by the caller's class taken with
    [isActive = false], and whose [ref] and [style] are the computed ones:
    no prop of the caller overrides these four.  A function child is called
    with [isActive = false]. *)
Theorem IsomorphicLink_outgoing (context : IsomorphicNavContextProps.t)
    (p : IsomorphicLinkProps CSSProperties ReactNode Other)
    (ref : value CSSProperties Other) (t : To) :
  useSanitizedTo URL_new context (to p) (isExternal p) = Ok (true, t) ->
  exists s attributes,
    to p = ToString s /\
    IsomorphicLink URL_new context p ref =
      Ok (Anchor attributes (anchor_child (children p))) /\
    prop "href" attributes = Some (VString s) /\
    prop "className" attributes =
      Some (VString ("isomorphic-link isomorphic-link--external " ++
                     isomorphicClassName (className p) (Some false))) /\
    prop "style" attributes =
      Some (value_of_css (isomorphicStyle (style p) (Some false))) /\
    prop "ref" attributes = Some ref.
Proof.
  intros E.
  destruct (sanitizeTo_outgoing _ _ _ _ _ _ E) as [-> [s S]].
  exists s; eexists; split; [exact S |].
  unfold IsomorphicLink; rewrite E; simpl.
  split; [reflexivity |].
  rewrite !prop_app, S; simpl.
  repeat split.
Qed.

(** X12. The new-tab attributes of an anchor are defaults: [target] and
    [rel] are those of the caller's props when the caller binds them, and
    otherwise [_blank] and [noopener noreferrer] when the context asks for
    new tabs, and absent when it does not. *)
Theorem IsomorphicLink_new_tab (context : IsomorphicNavContextProps.t)
    (p : IsomorphicLinkProps CSSProperties ReactNode Other)
    (ref : value CSSProperties Other) (t : To) :
  useSanitizedTo URL_new context (to p) (isExternal p) = Ok (true, t) ->
  exists attributes child,
    IsomorphicLink URL_new context p ref = Ok (Anchor attributes child) /\
    prop "target" attributes =
      match prop "target" (props p) with
      | Some v => Some v
      | None =>
          if JS.truthy_obool
               (IsomorphicNavContextProps.openOutgoingAsBlank context)
          then Some (VString "_blank") else None
      end /\
    prop "rel" attributes =
      match prop "rel" (props p) with
      | Some v => Some v
      | None =>
          if JS.truthy_obool
               (IsomorphicNavContextProps.openOutgoingAsBlank context)
          then Some (VString "noopener noreferrer") else None
      end.
Proof.
  intros E.
  unfold IsomorphicLink; rewrite E; simpl.
  do 2 eexists; split; [reflexivity |].
  rewrite !prop_app; simpl.
  unfold blank_attributes.
  destruct (JS.truthy_obool _); simpl;
    destruct (prop "target" (props p)), (prop "rel" (props p)); auto.
Qed.

(** X13. For an internal target the component renders the router's
    [NavLink] with the caller's children as they are; its [to] is the
    sanitised target and its class function gives the internal marker
    classes followed by the caller's class for the active state it
    receives, whatever the caller's other props bind; [prefetch] is the
    caller's when bound and the context's default otherwise; and the
    new-tab attributes are never added. *)
Theorem IsomorphicLink_internal (context : IsomorphicNavContextProps.t)
    (p : IsomorphicLinkProps CSSProperties ReactNode Other)
    (ref : value CSSProperties Other) (t : To) :
  useSanitizedTo URL_new context (to p) (isExternal p) = Ok (false, t) ->
  exists attributes,
    IsomorphicLink URL_new context p ref =
      Ok (NavLink attributes (children p)) /\
    prop "to" attributes = Some (value_of_To t) /\
    prop "className" attributes =
      Some (VClassNameFn
              (fun isActive =>
                 "isomorphic-link isomorphic-link--internal " ++
                 isomorphicClassName (className p) (Some isActive))%string) /\
    prop "prefetch" attributes =
      match prop "prefetch" (props p) with
      | Some v => Some v
      | None =>
          Some (value_of_string
                  (IsomorphicNavContextProps.defaultPrefetch context))
      end /\
    prop "target" attributes = prop "target" (props p) /\
    prop "rel" attributes = prop "rel" (props p).
Proof.
  intros E.
  unfold IsomorphicLink; rewrite E; cbn [bind].
  eexists; split; [reflexivity |].
  rewrite !prop_app; simpl.
  repeat split;
    now destruct (prop _ (props p)).
Qed.

(** X14. A link whose target is a structured path and whose [isExternal]
    is true renders nothing: the component throws the misuse error, for
    every context, ref and other props. *)
Theorem IsomorphicLink_path_external_throws
    (context : IsomorphicNavContextProps.t)
    (p : IsomorphicLinkProps CSSProperties ReactNode Other)
    (ref : value CSSProperties Other) (path : Path.t) :
  to p = ToPath path ->
  isExternal p = Some true ->
  IsomorphicLink URL_new context p ref =
  Throw (Error ("remix-isomorphic-link: " ++ misuse_message)).
Proof.
  intros T F; unfold IsomorphicLink, useSanitizedTo.
  now rewrite T, F.
Qed.

(** X15. Without a provider the context has no host, so every target that
    parses as an absolute URL is outgoing, whatever its host, and is
    returned unchanged. *)
Theorem useSanitizedTo_default_context (s : string) (url : URL.t) flag :
  URL_new s = Some url ->
  useSanitizedTo URL_new IsomorphicNavContext_default (ToString s) flag =
  Ok (true, ToString s).
Proof.
  intros H; unfold useSanitizedTo; simpl.
  now rewrite (sanitizeTo_url _ _ _ _ _ _ H).
Qed.

End ComponentFacts.

(** ** Instances of the further properties *)

Lemma sanitizedHref_strips_host_prefix_witness :
  sanitizedHref "example.community/x" (Some "example.com") = "munity/x".
Proof.
  apply (sanitizedHref_strips_host_prefix EmptyString "example.com"
           "munity/x" None).
  discriminate.
Defined.

Lemma sanitizeTo_host_prefix_equiv_witness :
  sanitizeTo WHATWG.parse (ToString "example.com/contact") (Some true) None
    (Some "example.com")
  = sanitizeTo WHATWG.parse (ToString "/contact") (Some true) None None.
Proof.
  apply (sanitizeTo_host_prefix_equiv WHATWG.parse "example.com" "/contact"
           (Some true) None).
  - discriminate.
  - vm_compute; reflexivity.
  - vm_compute; reflexivity.
  - reflexivity.
Defined.

Lemma sanitizeTo_relative_is_root_witness :
  sanitizeTo WHATWG.parse (ToString "contact") None None None
  = sanitizeTo WHATWG.parse (ToString "/contact") None None None.
Proof.
  apply (sanitizeTo_relative_is_root WHATWG.parse "contact" None None);
    vm_compute; reflexivity.
Defined.

Lemma sanitizeTo_relative_target_witness :
  sanitizeTo WHATWG.parse (ToString "contact?foo=bar#baz") (Some true) None
    None
  = Ok (false, ToString "/contact/?foo=bar#baz").
Proof.
  apply (sanitizeTo_relative_target WHATWG.parse "contact?foo=bar#baz"
           (URL.mk (fake_origin ++ "/contact?foo=bar#baz") "https:"
              "remix-isomorphic-link.com" "/contact" "?foo=bar" "#baz")
           (Some true) None None);
    vm_compute; reflexivity.
Defined.

Lemma sanitizeTo_outgoing_is_input_witness :
  ToString "youtube.com" = ToString "youtube.com" /\
  exists s, ToString "youtube.com" = ToString s.
Proof.
  apply (sanitizeTo_outgoing_is_input WHATWG.parse (ToString "youtube.com")
           (Some true) (Some true) (Some "example.com")
           (ToString "youtube.com")).
  vm_compute; reflexivity.
Defined.

Lemma sanitizeTo_path_idempotent_witness :
  exists q,
    sanitizeTo WHATWG.parse (ToPath contact_path) (Some true) None None
      = Ok (false, ToPath q) /\
    sanitizeTo WHATWG.parse (ToPath q) (Some true) None None
      = Ok (false, ToPath q).
Proof.
  apply (sanitizeTo_path_idempotent WHATWG.parse contact_path (Some true)
           None None).
  reflexivity.
Defined.

Lemma IsomorphicLink_outgoing_witness :
  exists s attributes,
    ToString "https://youtube.com" = ToString s /\
    IsomorphicLink WHATWG.parse example_context
      (example_link (ToString "https://youtube.com") None) VUndefined
      = Ok (Anchor attributes (Some tt)) /\
    prop "href" attributes = Some (VString s) /\
    prop "className" attributes =
      Some (VString "isomorphic-link isomorphic-link--external ") /\
    prop "style" attributes = Some VUndefined /\
    prop "ref" attributes = Some VUndefined.
Proof.
  apply (IsomorphicLink_outgoing WHATWG.parse unit unit unit example_context
           (example_link (ToString "https://youtube.com") None) VUndefined
           (ToString "https://youtube.com")).
  vm_compute; reflexivity.
Defined.

Lemma IsomorphicLink_new_tab_witness :
  exists attributes child,
    IsomorphicLink WHATWG.parse example_context
      (example_link (ToString "https://youtube.com") None) VUndefined
      = Ok (Anchor attributes child) /\
    prop "target" attributes = Some (VString "_self") /\
    prop "rel" attributes = Some (VString "noopener noreferrer").
Proof.
  apply (IsomorphicLink_new_tab WHATWG.parse unit unit unit example_context
           (example_link (ToString "https://youtube.com") None) VUndefined
           (ToString "https://youtube.com")).
  vm_compute; reflexivity.
Defined.

Lemma IsomorphicLink_internal_witness :
  exists attributes,
    IsomorphicLink WHATWG.parse example_context
      (example_link (ToString "contact") None) VUndefined
      = Ok (NavLink attributes (Some (ChildrenFn (fun _ => tt)))) /\
    prop "to" attributes = Some (VString "/contact/") /\
    prop "className" attributes =
      Some (VClassNameFn
              (fun isActive =>
                 "isomorphic-link isomorphic-link--internal " ++
                 isomorphicClassName example_className (Some isActive))) /\
    prop "prefetch" attributes = Some (VString "render") /\
    prop "target" attributes = Some (VString "_self") /\
    prop "rel" attributes = None.
Proof.
  apply (IsomorphicLink_internal WHATWG.parse unit unit unit example_context
           (example_link (ToString "contact") None) VUndefined
           (ToString "/contact/")).
  vm_compute; reflexivity.
Defined.

Lemma IsomorphicLink_path_external_throws_witness :
  IsomorphicLink WHATWG.parse example_context
    (example_link (ToPath contact_path) (Some true)) VUndefined
  = Throw (Error ("remix-isomorphic-link: " ++ misuse_message)).
Proof.
  apply (IsomorphicLink_path_external_throws WHATWG.parse unit unit unit
           example_context (example_link (ToPath contact_path) (Some true))
           VUndefined contact_path);
    reflexivity.
Defined.

Lemma useSanitizedTo_default_context_witness :
  useSanitizedTo WHATWG.parse IsomorphicNavContext_default
    (ToString "https://example.com/contact") None
  = Ok (true, ToString "https://example.com/contact").
Proof.
  apply (useSanitizedTo_default_context WHATWG.parse
           "https://example.com/contact" example_contact_url None).
  vm_compute; reflexivity.
Defined.
